(** * Colo: the card components

    A shallow embedding of the three React components of the repository
    ([Card] with its helpers [Corner] and [iconify], [DraggableCard], and the
    [Home] page) and the properties of their rendered trees.

    A component is a function from its props to the tree it returns.  A
    component that can [throw] returns a [result]. *)

From Stdlib Require Import Ascii QArith.
From stdpp Require Import base option list strings gmap.

Set Warnings "-register-all".

(** ** The JavaScript values the components handle *)

Module Js.

(** [new Error(message)]: the only thing the sources throw. *)
Inductive JsError : Type :=
| Error (message : string).

(** The outcome of a call that either returns or throws. *)
Inductive result (A : Type) : Type :=
| Ok (a : A)
| Throw (e : JsError).

Arguments Ok {A} a.
Arguments Throw {A} e.

Definition bind {A B : Type} (r : result A) (k : A -> result B) : result B :=
  match r with
  | Ok a => k a
  | Throw e => Throw e
  end.

#[global] Instance result_ret : MRet result := @Ok.
#[global] Instance result_bind : MBind result := fun A B k r => bind r k.
#[global] Instance result_fmap : FMap result :=
  fun A B f r => bind r (fun a => Ok (f a)).

Definition is_ok {A : Type} (r : result A) : bool :=
  match r with
  | Ok _ => true
  | Throw _ => false
  end.

(** The UTF-16 code units one byte of UTF-8 text contributes: a lead byte of a
    four-byte sequence starts a surrogate pair, a continuation byte adds
    nothing, every other lead byte is one unit. *)
Definition utf16_units (b : Ascii.ascii) : nat :=
  let n := Ascii.nat_of_ascii b in
  if (n <? 128)%nat then 1
  else if (n <? 192)%nat then 0
  else if (n <? 240)%nat then 1
  else 2.

(** [s.length]: JavaScript counts UTF-16 code units.  Strings are kept here as
    their UTF-8 bytes. *)
Fixpoint js_length (s : string) : nat :=
  match s with
  | EmptyString => 0
  | String b rest => utf16_units b + js_length rest
  end.

(** The number of Unicode code points of a string: every byte that is not a
    continuation byte starts one. *)
Fixpoint code_points (s : string) : nat :=
  match s with
  | EmptyString => 0
  | String b rest =>
      let n := Ascii.nat_of_ascii b in
      (if (n <? 128)%nat || (192 <=? n)%nat then 1 else 0) + code_points rest
  end.

(** The UTF-8 bytes of a code point. *)
Definition utf8_encode (cp : N) : string :=
  let byte (n : N) := Ascii.ascii_of_N n in
  let cont (n : N) := byte (N.lor 128 (N.land n 63)) in
  let bytes :=
    if (cp <? 128)%N then [byte cp]
    else if (cp <? 2048)%N then [byte (N.lor 192 (N.shiftr cp 6)); cont cp]
    else if (cp <? 65536)%N then
      [byte (N.lor 224 (N.shiftr cp 12)); cont (N.shiftr cp 6); cont cp]
    else
      [byte (N.lor 240 (N.shiftr cp 18)); cont (N.shiftr cp 12);
       cont (N.shiftr cp 6); cont cp] in
  String.string_of_list_ascii bytes.

(** Truthiness of an optional string: [undefined] and the empty string are
    falsy. *)
Definition truthy (s : option string) : bool :=
  match s with
  | None => false
  | Some s => negb (String.eqb s "")
  end.

(** [String(x)] for an optional string, as a property key or inside a template
    literal. *)
Definition to_string (s : option string) : string :=
  match s with
  | None => "undefined"
  | Some s => s
  end.

(** Values given as JSX attributes.  [cn] is imported from [@/lib/utils] and
    its body is not among the sources: a call [cn(a, b, ...)] is kept as
    [VCn [a; b; ...]], the ordered list of its arguments.  Equal arguments
    give equal classes whatever [cn] is; two different lists are two
    different calls, which [cn] may still map to one class string. *)
Inductive JsValue : Type :=
| VUndefined
| VBool (b : bool)
| VNum (q : Q)
| VStr (s : string)
| VObj (fields : list (string * JsValue))
| VCn (args : list JsValue).

(** An optional string prop as a value. *)
Definition of_option (s : option string) : JsValue :=
  match s with
  | None => VUndefined
  | Some s => VStr s
  end.

(** What a component returns: text, or an element with its attributes in
    source order and its children.  Components of the repository are called
    where they are used, so that their elements are already expanded; an
    element of an imported component ([motion.div], [Button]) stays as it is
    written. *)
Inductive ReactNode : Type :=
| Text (s : string)
| Elem (tag : string) (props : list (string * JsValue)) (children : list ReactNode).

Definition tag (n : ReactNode) : option string :=
  match n with
  | Text _ => None
  | Elem t _ _ => Some t
  end.

Definition props (n : ReactNode) : list (string * JsValue) :=
  match n with
  | Text _ => []
  | Elem _ ps _ => ps
  end.

Definition children (n : ReactNode) : list ReactNode :=
  match n with
  | Text _ => []
  | Elem _ _ cs => cs
  end.

(** The first attribute of that name. *)
Fixpoint lookup_prop (name : string) (ps : list (string * JsValue)) : option JsValue :=
  match ps with
  | [] => None
  | (k, v) :: rest => if String.eqb k name then Some v else lookup_prop name rest
  end.

Definition prop (name : string) (n : ReactNode) : option JsValue :=
  lookup_prop name (props n).

(** The arguments of the [cn] call that computes an element's [className]. *)
Definition class_args (n : ReactNode) : option (list JsValue) :=
  match prop "className" n with
  | Some (VCn args) => Some args
  | _ => None
  end.

(** The space-separated words of a class string. *)
Fixpoint words_aux (cur : string) (s : string) : list string :=
  match s with
  | EmptyString => if String.eqb cur "" then [] else [cur]
  | String c rest =>
      if Ascii.eqb c " "%char
      then (if String.eqb cur "" then words_aux "" rest else cur :: words_aux "" rest)
      else words_aux (cur +:+ String c EmptyString) rest
  end.

Definition words (s : string) : list string := words_aux "" s.

(** The class names an attribute value mentions, in order. *)
Fixpoint class_tokens (v : JsValue) : list string :=
  match v with
  | VStr s => words s
  | VCn args => flat_map class_tokens args
  | _ => []
  end.

(** How many elements of a tree, the root included, bear a tag. *)
Fixpoint count_tag (t : string) (n : ReactNode) : nat :=
  match n with
  | Text _ => 0
  | Elem t' _ cs =>
      (if String.eqb t' t then 1 else 0) + list_sum (map (count_tag t) cs)
  end.

End Js.

Import Js.

(** ** components/Card.tsx *)

Module Card.

Inductive Color : Type := pink | orange | lime | violet.

Inductive Value : Type :=
| V0 | V1 | V2 | V3 | V4 | V5 | V6 | V7 | V8 | V9
| Plus2 | Plus4 | Skip | Reverse | Wild.

(** The string a [Color] is at run time. *)
Definition Color_str (c : Color) : string :=
  match c with
  | pink => "pink"
  | orange => "orange"
  | lime => "lime"
  | violet => "violet"
  end.

(** The string a [Value] is at run time. *)
Definition Value_str (v : Value) : string :=
  match v with
  | V0 => "0" | V1 => "1" | V2 => "2" | V3 => "3" | V4 => "4"
  | V5 => "5" | V6 => "6" | V7 => "7" | V8 => "8" | V9 => "9"
  | Plus2 => "+2"
  | Plus4 => "+4"
  | Skip => "skip"
  | Reverse => "reverse"
  | Wild => "wild"
  end.

Definition all_colors : list Color := [pink; orange; lime; violet].

Definition all_values : list Value :=
  [V0; V1; V2; V3; V4; V5; V6; V7; V8; V9; Plus2; Plus4; Skip; Reverse; Wild].

Record CardProps : Type := {
  color : option Color;
  value : Value;
  className : option string;
}.

Definition colorMap : gmap string string :=
  {[ "pink" := "from-pink-400 to-pink-600";
     "orange" := "from-orange-300 to-orange-500";
     "lime" := "from-lime-300  to-lime-500";
     "violet" := "from-violet-400 to-violet-600" ]}.

(** The three symbols of [iconify], as their UTF-8 bytes:
    U+26D4 NO ENTRY, U+1F504 ANTICLOCKWISE DOWNWARDS AND UPWARDS OPEN CIRCLE
    ARROWS, U+1F3A8 ARTIST PALETTE. *)
Definition no_entry : string := "⛔".
Definition cycle_arrows : string := "🔄".
Definition palette : string := "🎨".

Definition iconify (v : Value) : string :=
  let v := Value_str v in
  if String.eqb v "skip" then no_entry
  else if String.eqb v "reverse" then cycle_arrows
  else if String.eqb v "wild" then palette
  else v.

Definition Corner (value : Value) (className : string) : ReactNode :=
  Elem "span"
    [("className",
      VCn [VStr "absolute text-white text-xs font-bold select-none"; VStr className])]
    [Text (iconify value)].

(** [const neutral = value === "+4" || value === "wild"]. *)
Definition neutral (value : Value) : bool :=
  String.eqb (Value_str value) "+4" || String.eqb (Value_str value) "wild".

(** The error of the [throw] in [Card]. *)
Definition MissingColorError : JsError :=
  Error "Color is required for this card value.".

(** The two size classes of the central glyph. *)
Definition text_3xl : string := "text-3xl".
Definition text_6xl : string := "text-6xl".

(** The body of [Card].  The table it reads is an argument, so that what the
    result owes to the table can be stated; [Card] is the body at [colorMap]. *)
Definition render (table : gmap string string) (p : CardProps) : result ReactNode :=
  let color := Color_str <$> color p in
  let value := value p in
  let className := className p in
  let neutral := neutral value in
  if negb neutral && negb (truthy color) then Throw MissingColorError
  else
    let bg :=
      if neutral then "bg-[#1e3a8a]"
      else "bg-gradient-to-br " +:+ to_string (table !! to_string color) in
    Ok (Elem "div"
      [("className",
        VCn [VStr "relative w-32 overflow-hidden h-52 rounded-[18px] border-[2px] border-black/30";
             VStr bg;
             VStr "shadow-[inset_0_0_0_4px_rgba(255,255,255,0.9)]";
             VStr "shadow-lg";
             of_option className])]
      [Elem "span"
         [("className",
           VCn [VStr "absolute inset-0 block origin-top-left rotate-12";
                VStr (if neutral
                      then "bg-gradient-to-br from-white/10 via-white/5 to-transparent"
                      else "bg-white/20");
                VStr "mix-blend-overlay pointer-events-none"])]
         [];
       Elem "span"
         [("className",
           VStr "absolute inset-x-0 top-0 h-1/3 rounded-t-[14px] bg-white/15 blur-[6px] pointer-events-none")]
         [];
       Corner value "top-2 left-2";
       Corner value "bottom-2 right-2 rotate-180";
       Elem "span"
         [("className",
           VCn [VStr "absolute inset-0 flex items-center justify-center text-white font-extrabold drop-shadow-md";
                VStr (if (2 <? js_length (Value_str value))%nat then text_3xl else text_6xl)])]
         [Text (iconify value)]]).

Definition Card (p : CardProps) : result ReactNode := render colorMap p.

(** The parts of a rendered card. *)
Definition background (n : ReactNode) : option JsValue :=
  args ← class_args n; args !! 1%nat.

Definition overlay (n : ReactNode) : option ReactNode := children n !! 0%nat.
Definition highlight (n : ReactNode) : option ReactNode := children n !! 1%nat.
Definition corner1 (n : ReactNode) : option ReactNode := children n !! 2%nat.
Definition corner2 (n : ReactNode) : option ReactNode := children n !! 3%nat.
Definition central (n : ReactNode) : option ReactNode := children n !! 4%nat.

(** The size class of the central glyph: the second argument of its [cn]. *)
Definition central_size (n : ReactNode) : option JsValue :=
  c ← central n; args ← class_args c; args !! 1%nat.

(** The class names of an optional element. *)
Definition classes (n : option ReactNode) : list string :=
  match n ≫= prop "className" with
  | Some v => class_tokens v
  | None => []
  end.

#[global] Instance Color_eq_dec : EqDecision Color.
Proof. solve_decision. Defined.

#[global] Instance Value_eq_dec : EqDecision Value.
Proof. solve_decision. Defined.

(** The values that need no color, and the values [iconify] gives a symbol. *)
Definition neutral_values : list Value := [Plus4; Wild].
Definition symbol_values : list Value := [Skip; Reverse; Wild].

(** The size rule in the specification's words: the class follows the length
    of the text shown, the smaller class when it is longer than 2. *)
Definition spec_central_size (v : Value) : string :=
  if (2 <? js_length (iconify v))%nat then text_3xl else text_6xl.

(** The specification's size rule as a property of one render. *)
Definition central_size_by_display_text (p : CardProps) : Prop :=
  ∀ n, Card p = Ok n → central_size n = Some (VStr (spec_central_size (value p))).

End Card.

(** ** components/DraggableCard.tsx *)

Module DraggableCard.

(** [drag] and [dragSnapToOrigin] are attributes with no value, that is
    [true]. *)
Definition DraggableCard (children : ReactNode) : ReactNode :=
  Elem "motion.div"
    [("drag", VBool true);
     ("dragSnapToOrigin", VBool true);
     ("dragElastic", VNum 0.2);
     ("whileDrag", VObj [("scale", VNum 1.1); ("rotate", VNum 5)]);
     ("transition",
      VObj [("type", VStr "spring"); ("stiffness", VNum 300); ("damping", VNum 20)]);
     ("className", VStr "cursor-grab active:cursor-grabbing")]
    [children].

(** The attributes other than the style classes: what the gesture primitive
    is configured with. *)
Definition gesture_config (n : ReactNode) : list (string * JsValue) :=
  filter (fun kv => negb (String.eqb kv.1 "className")) (props n).

End DraggableCard.

(** ** app/page.tsx *)

Module Page.

Import Card DraggableCard.

(** [Button] is imported from [@/components/ui/button]; its element stays
    unexpanded.  The [;] between the button and the heading is JSX text. *)
Definition Home : result ReactNode :=
  card1 ← Card {| color := Some orange; value := V1; className := None |};
  card2 ← Card {| color := None; value := Wild; className := None |};
  mret (Elem "div" [("className", VStr "w-screen")]
    [Elem "Button" [] [Text "Button"];
     Text ";";
     Elem "h1" [("className", VStr "bg-primary")] [Text "ghdfkjgfhd"];
     DraggableCard card1;
     DraggableCard card2]).

End Page.

Import Card DraggableCard Page.

(** From [Card p = Ok n] (or [render table p = Ok n]) to the tree [n]. *)
Ltac card_returns H :=
  unfold Card, render in H;
  match type of H with
  | (if ?guard then _ else _) = Ok _ =>
      destruct guard eqn:?; [discriminate H|]; injection H as <-
  end.

(** ** Strings and values at run time *)

Section Runtime.

(** Every card value is one of the fifteen. *)
Lemma all_values_complete (v : Value) : v ∈ all_values.
Proof. apply (bool_decide_unpack _). by destruct v. Qed.

Lemma all_colors_complete (c : Color) : c ∈ all_colors.
Proof. apply (bool_decide_unpack _). by destruct c. Qed.

(** A color is never the empty string, so a color that is given is truthy. *)
Lemma color_truthy (c : Color) : truthy (Some (Color_str c)) = true.
Proof. by destruct c. Qed.

(** Card values are ASCII: their JavaScript length is their byte length. *)
Lemma value_length_ascii (v : Value) :
  js_length (Value_str v) = String.length (Value_str v).
Proof. by destruct v. Qed.

(** The three symbols are the UTF-8 of their code points. *)
Lemma symbols_code_points :
  no_entry = utf8_encode 0x26D4
  ∧ cycle_arrows = utf8_encode 0x1F504
  ∧ palette = utf8_encode 0x1F3A8.
Proof. by vm_compute. Qed.

(** [neutral] decides membership in the neutral set. *)
Lemma neutral_decides (v : Value) : neutral v = bool_decide (v ∈ neutral_values).
Proof. by destruct v. Qed.

Lemma neutral_spec (v : Value) : neutral v = true ↔ v ∈ neutral_values.
Proof. rewrite neutral_decides. apply bool_decide_eq_true. Qed.

Lemma neutral_false (v : Value) : neutral v = false ↔ v ∉ neutral_values.
Proof. rewrite neutral_decides. apply bool_decide_eq_false. Qed.

End Runtime.

(** ** Card: when it throws *)

(** ** Card: when it throws *)

Section CardErrors.

(** The guard of [Card]: it throws exactly when the value is not neutral and
    no color is given. *)
Lemma render_guard (p : CardProps) :
  (negb (neutral (value p)) && negb (truthy (Color_str <$> color p)))
  = bool_decide ((value p ∉ neutral_values) ∧ color p = None).
Proof.
  destruct p as [[c|] v cl]; cbv [color value fmap option_fmap option_map].
  - rewrite color_truthy, andb_false_r. symmetry.
    apply bool_decide_eq_false. by intros [_ ?].
  - rewrite andb_true_r, neutral_decides.
    destruct (decide (v ∈ neutral_values)) as [Hin|Hin].
    + rewrite (bool_decide_eq_true_2 _ Hin). symmetry.
      apply bool_decide_eq_false. by intros [? _].
    + rewrite (bool_decide_eq_false_2 _ Hin). symmetry.
      by apply bool_decide_eq_true.
Qed.

Lemma render_throws (table : gmap string string) (p : CardProps) :
  value p ∉ neutral_values → color p = None →
  render table p = Throw MissingColorError.
Proof.
  intros Hv Hc. unfold render. rewrite render_guard.
  by rewrite bool_decide_eq_true_2.
Qed.

Lemma render_returns (table : gmap string string) (p : CardProps) :
  value p ∈ neutral_values ∨ is_Some (color p) →
  is_ok (render table p) = true.
Proof.
  intros H. unfold render. rewrite render_guard.
  rewrite bool_decide_eq_false_2; [done|].
  intros [Hv Hc]. destruct H as [H|H]; [done|].
  rewrite Hc in H. by destruct H.
Qed.

(** C1. [Card] fails with one error only, the missing-color error, and it
    fails exactly when the value is outside the neutral set and no color is
    given: with a color, or with a neutral value, it returns. *)
Theorem Card_throws_iff_color_missing (p : CardProps) :
  (∀ e, Card p = Throw e ↔
        e = MissingColorError ∧ (value p ∉ neutral_values) ∧ color p = None)
  ∧ (is_ok (Card p) = true ↔ value p ∈ neutral_values ∨ is_Some (color p)).
Proof.
  split.
  - intros e. split.
    + intros He.
      destruct (decide ((value p ∉ neutral_values) ∧ color p = None))
        as [[Hv Hc]|Hn].
      * unfold Card in He. rewrite (render_throws _ _ Hv Hc) in He.
        by inversion He.
      * exfalso. unfold Card, render in He.
        rewrite render_guard, (bool_decide_eq_false_2 _ Hn) in He.
        discriminate He.
    + intros (-> & Hv & Hc). by apply render_throws.
  - split.
    + intros Hok.
      destruct (decide (value p ∈ neutral_values)) as [Hv|Hv]; [by left|].
      destruct (color p) as [c|] eqn:Hc; [by right; eexists|].
      unfold Card in Hok. by rewrite (render_throws _ _ Hv Hc) in Hok.
    + apply render_returns.
Qed.

(** The scenarios of the specification. *)
Example Card_skip_without_color :
  Card {| color := None; value := Skip; className := None |}
  = Throw (Error "Color is required for this card value.").
Proof. reflexivity. Qed.

Example Card_wild_without_color :
  is_ok (Card {| color := None; value := Wild; className := None |}) = true.
Proof. reflexivity. Qed.

End CardErrors.

(** ** Card: the tree it returns *)

Section CardBackground.

(** A neutral value passes the guard whatever the color. *)
Lemma render_neutral (table : gmap string string) (p : CardProps) :
  value p ∈ neutral_values →
  ∃ n, render table p = Ok n ∧ background n = Some (VStr "bg-[#1e3a8a]").
Proof.
  intros Hv%neutral_spec. unfold render. rewrite Hv.
  eexists. split; reflexivity.
Qed.

(** For a neutral value neither the color nor the table reaches the result. *)
Lemma render_neutral_same (t1 t2 : gmap string string) (c1 c2 : option Color)
    (v : Value) (cl : option string) :
  v ∈ neutral_values →
  render t1 {| color := c1; value := v; className := cl |}
  = render t2 {| color := c2; value := v; className := cl |}.
Proof.
  intros Hv%neutral_spec. unfold render. cbv [value color className].
  by rewrite Hv.
Qed.

(** For any other value the background is what the table holds at the color. *)
Lemma render_colored (table : gmap string string) (v : Value) (c : Color)
    (cl : option string) :
  v ∉ neutral_values →
  ∃ n, render table {| color := Some c; value := v; className := cl |} = Ok n
       ∧ background n
         = Some (VStr ("bg-gradient-to-br " +:+ to_string (table !! Color_str c))).
Proof.
  intros Hv%neutral_false. unfold render.
  cbv [value color className fmap option_fmap option_map].
  rewrite Hv, color_truthy.
  eexists. split; reflexivity.
Qed.

(** The table has an entry of its own for each color. *)
Lemma colorMap_total (c : Color) :
  ∃ g, colorMap !! Color_str c = Some g
       ∧ (∃ a b, words g = ["from-" +:+ a; "to-" +:+ b])
       ∧ ∀ c', colorMap !! Color_str c' = Some g → c' = c.
Proof.
  destruct c; eexists; (split; [reflexivity|]);
    (split; [by do 2 eexists|]);
    intros [] Hc; try reflexivity; by vm_compute in Hc.
Qed.

(** C3. For a neutral value the render returns, and it returns the same tree
    whatever the two color arguments are, given or not; its background is the
    fixed neutral one. *)
Theorem neutral_render_ignores_color (v : Value) (c1 c2 : option Color)
    (cl : option string) :
  v ∈ neutral_values →
  ∃ n, Card {| color := c1; value := v; className := cl |} = Ok n
       ∧ Card {| color := c2; value := v; className := cl |} = Ok n
       ∧ background n = Some (VStr "bg-[#1e3a8a]").
Proof.
  intros Hv.
  destruct (render_neutral colorMap
              {| color := c1; value := v; className := cl |} Hv) as (n & Hn & Hbg).
  exists n. split; [exact Hn|]. split; [|exact Hbg].
  unfold Card. by rewrite <- (render_neutral_same colorMap colorMap c1 c2).
Qed.

Lemma neutral_render_ignores_color_witness :
  ∃ n, Card {| color := Some pink; value := Wild; className := None |} = Ok n
       ∧ Card {| color := None; value := Wild; className := None |} = Ok n
       ∧ background n = Some (VStr "bg-[#1e3a8a]").
Proof.
  apply (neutral_render_ignores_color Wild (Some pink) None None).
  unfold neutral_values. apply list_elem_of_further, list_elem_of_here.
Defined.

(** C5. For a value outside the neutral set and a color, the background is
    the gradient the table holds for that color: a from-stop and a to-stop,
    and no other color has the same.  For a neutral value the result is the
    same whatever the table holds. *)
Theorem colored_background_is_table_gradient (v : Value) (c : Color)
    (cl : option string) :
  v ∉ neutral_values →
  ∃ g n,
    colorMap !! Color_str c = Some g
    ∧ Card {| color := Some c; value := v; className := cl |} = Ok n
    ∧ background n = Some (VStr ("bg-gradient-to-br " +:+ g))
    ∧ (∃ a b, words g = ["from-" +:+ a; "to-" +:+ b])
    ∧ (∀ c', colorMap !! Color_str c' = Some g → c' = c)
    ∧ Forall (λ w, ∀ t1 t2 c0 cl0,
                render t1 {| color := c0; value := w; className := cl0 |}
                = render t2 {| color := c0; value := w; className := cl0 |})
             neutral_values.
Proof.
  intros Hv.
  destruct (colorMap_total c) as (g & Hg & Hstops & Hown).
  destruct (render_colored colorMap v c cl Hv) as (n & Hn & Hbg).
  exists g, n. rewrite Hg in Hbg.
  repeat split; try done.
  apply Forall_forall. intros w Hw t1 t2 c0 cl0.
  by apply render_neutral_same.
Qed.

Lemma colored_background_is_table_gradient_witness :
  ∃ g n,
    colorMap !! Color_str orange = Some g
    ∧ Card {| color := Some orange; value := V1; className := None |} = Ok n
    ∧ background n = Some (VStr ("bg-gradient-to-br " +:+ g))
    ∧ (∃ a b, words g = ["from-" +:+ a; "to-" +:+ b])
    ∧ (∀ c', colorMap !! Color_str c' = Some g → c' = orange)
    ∧ Forall (λ w, ∀ t1 t2 c0 cl0,
                render t1 {| color := c0; value := w; className := cl0 |}
                = render t2 {| color := c0; value := w; className := cl0 |})
             neutral_values.
Proof.
  apply (colored_background_is_table_gradient V1 orange None).
  apply neutral_false. reflexivity.
Defined.

(** The overlay over the background: a faint gradient on a neutral card, a
    flat tint on a colored one. *)
Lemma overlay_by_neutrality (p : CardProps) (n : ReactNode) :
  Card p = Ok n →
  classes (overlay n)
  = ["absolute"; "inset-0"; "block"; "origin-top-left"; "rotate-12"]
    ++ (if neutral (value p)
        then ["bg-gradient-to-br"; "from-white/10"; "via-white/5"; "to-transparent"]
        else ["bg-white/20"])
    ++ ["mix-blend-overlay"; "pointer-events-none"]
  ∧ classes (highlight n)
    = ["absolute"; "inset-x-0"; "top-0"; "h-1/3"; "rounded-t-[14px]";
       "bg-white/15"; "blur-[6px]"; "pointer-events-none"].
Proof.
  intros H. card_returns H. by destruct (neutral (value p)).
Qed.

(** The scenario of the specification: an orange 1. *)
Example Card_orange_1_background :
  background <$> Card {| color := Some orange; value := V1; className := None |}
  = Ok (Some (VStr "bg-gradient-to-br from-orange-300 to-orange-500")).
Proof. reflexivity. Qed.

End CardBackground.

(** ** Card: glyphs *)

Section CardGlyphs.

(** C4. [iconify] is defined on every card value: skip, reverse and wild
    have their symbols (no entry, the two arrows in a circle, the palette),
    and each digit, as well as +2 and +4, is shown as its own text. *)
Theorem iconify_mapping :
  iconify Skip = utf8_encode 0x26D4
  ∧ iconify Reverse = utf8_encode 0x1F504
  ∧ iconify Wild = utf8_encode 0x1F3A8
  ∧ Forall (λ d, iconify d = Value_str d) [V0; V1; V2; V3; V4; V5; V6; V7; V8; V9]
  ∧ Forall (λ v, iconify v = Value_str v) [Plus2; Plus4]
  ∧ ∀ v, v ∈ symbol_values ∨ iconify v = Value_str v.
Proof.
  repeat split; try by vm_compute.
  - by repeat constructor.
  - by repeat constructor.
  - intros v. destruct (decide (v ∈ symbol_values)) as [Hv|Hv]; [by left|].
    right. apply (bool_decide_eq_false_2 _) in Hv.
    destruct v; try discriminate Hv; reflexivity.
Qed.

(** The symbols are short: one code point each, at most two UTF-16 units. *)
Lemma symbol_lengths (v : Value) :
  v ∈ symbol_values → code_points (iconify v) = 1 ∧ js_length (iconify v) ≤ 2.
Proof.
  intros Hv. apply (bool_decide_eq_true_2 _) in Hv.
  destruct v; try discriminate Hv; vm_compute; split; lia.
Qed.

(** A name is longer than two characters exactly for the symbol values. *)
Lemma long_name_iff_symbol (v : Value) :
  (2 <? js_length (Value_str v))%nat = bool_decide (v ∈ symbol_values).
Proof. by destruct v. Qed.

(** C2 as stated fails on a wild card: the palette is one code point (two
    UTF-16 units), so the display-text rule asks for the larger class, and
    the card has the smaller one. *)
Lemma central_size_wild_not_by_display_text :
  let p := {| color := None; value := Wild; className := None |} in
  code_points (iconify Wild) = 1
  ∧ js_length (iconify Wild) = 2
  ∧ spec_central_size Wild = text_6xl
  ∧ (central_size <$> Card p) = Ok (Some (VStr text_3xl))
  ∧ ¬ central_size_by_display_text p.
Proof.
  repeat split; try reflexivity.
  intros Hclaim. specialize (Hclaim _ eq_refl). discriminate Hclaim.
Qed.

(** C2, amended. The size of the central glyph follows the length of the
    value's own name, not of the text shown: the smaller class when the name
    is longer than 2, which is so exactly for skip, reverse and wild, and the
    larger class otherwise; +4 has the larger class, wild the smaller. *)
Theorem central_size_by_value_length (p : CardProps) (n : ReactNode) :
  Card p = Ok n →
  central_size n
  = Some (VStr (if (2 <? js_length (Value_str (value p)))%nat
                then text_3xl else text_6xl))
  ∧ central_size n
    = Some (VStr (if bool_decide (value p ∈ symbol_values)
                  then text_3xl else text_6xl))
  ∧ (value p = Plus4 → central_size n = Some (VStr text_6xl))
  ∧ (value p = Wild → central_size n = Some (VStr text_3xl)).
Proof.
  intros H. card_returns H.
  rewrite <- long_name_iff_symbol.
  split; [reflexivity|]. split; [reflexivity|].
  split; intros ->; reflexivity.
Qed.

Lemma central_size_by_value_length_witness :
  let p := {| color := None; value := Plus4; className := None |} in
  ∃ n, Card p = Ok n ∧ central_size n = Some (VStr text_6xl).
Proof.
  eexists. split; [reflexivity|].
  refine (proj1 (proj2 (proj2
    (central_size_by_value_length
       {| color := None; value := Plus4; className := None |} _ eq_refl))) eq_refl).
Defined.

(** C6. In a rendered card the two corner labels show what the central glyph
    shows, the glyph of the value; the first corner is at the top left, the
    second at the bottom right, and only the second is turned by 180
    degrees. *)
Theorem corners_repeat_central_glyph (p : CardProps) (n : ReactNode) :
  Card p = Ok n →
  children <$> central n = Some [Text (iconify (value p))]
  ∧ children <$> corner1 n = children <$> central n
  ∧ children <$> corner2 n = children <$> central n
  ∧ corner1 n = Some (Corner (value p) "top-2 left-2")
  ∧ corner2 n = Some (Corner (value p) "bottom-2 right-2 rotate-180")
  ∧ classes (corner1 n)
    = ["absolute"; "text-white"; "text-xs"; "font-bold"; "select-none";
       "top-2"; "left-2"]
  ∧ classes (corner2 n)
    = ["absolute"; "text-white"; "text-xs"; "font-bold"; "select-none";
       "bottom-2"; "right-2"; "rotate-180"].
Proof.
  intros H. card_returns H. repeat split.
Qed.

Lemma corners_repeat_central_glyph_witness :
  let p := {| color := None; value := Wild; className := None |} in
  ∃ n, Card p = Ok n
       ∧ children <$> central n = Some [Text palette]
       ∧ children <$> corner1 n = children <$> central n
       ∧ children <$> corner2 n = children <$> central n.
Proof.
  eexists. split; [reflexivity|].
  pose proof (corners_repeat_central_glyph
    {| color := None; value := Wild; className := None |} _ eq_refl) as H.
  split; [exact (proj1 H)|].
  split; [exact (proj1 (proj2 H))|exact (proj1 (proj2 (proj2 H)))].
Defined.

End CardGlyphs.

(** ** Card: the style override *)

Section CardClassName.

(** C10. Whether [Card] returns is the same for every [className]: it is
    decided by the value and the color alone.  When it returns, the root's
    classes are four base classes that do not depend on [className],
    followed by [className] as the last argument. *)
Theorem className_is_last_and_never_decides (c : option Color) (v : Value) :
  (∀ cl1 cl2,
     is_ok (Card {| color := c; value := v; className := cl1 |})
     = is_ok (Card {| color := c; value := v; className := cl2 |}))
  ∧ (∃ b1 b2 b3 b4,
      ∀ cl n,
        Card {| color := c; value := v; className := cl |} = Ok n →
        class_args n = Some ([VStr b1; VStr b2; VStr b3; VStr b4] ++ [of_option cl]))
  ∧ (∀ cl,
       is_ok (Card {| color := c; value := v; className := cl |})
       = bool_decide (v ∈ neutral_values ∨ is_Some c)).
Proof.
  split; [|split].
  - intros cl1 cl2. unfold Card, render. cbv [value color className].
    by destruct (negb (neutral v) && negb (truthy (Color_str <$> c))).
  - do 4 eexists. intros cl n H. card_returns H. reflexivity.
  - intros cl. unfold Card, render. rewrite render_guard.
    cbv [value color className].
    destruct (decide ((v ∉ neutral_values) ∧ c = None)) as [[Hv Hc]|Hn].
    + rewrite bool_decide_eq_true_2 by done. symmetry.
      apply bool_decide_eq_false. intros [Hin|Hsome]; [done|].
      rewrite Hc in Hsome. by destruct Hsome.
    + rewrite bool_decide_eq_false_2 by done. symmetry.
      apply bool_decide_eq_true.
      destruct (decide (v ∈ neutral_values)) as [Hin|Hin]; [by left|].
      right. destruct c; [by eexists|]. by destruct Hn.
Qed.

Lemma className_is_last_and_never_decides_witness :
  ∃ n b1 b2 b3 b4,
    Card {| color := Some violet; value := Plus2; className := Some "m-4 w-40" |}
    = Ok n
    ∧ class_args n
      = Some ([VStr b1; VStr b2; VStr b3; VStr b4] ++ [VStr "m-4 w-40"])
    ∧ is_ok (Card {| color := Some violet; value := Plus2; className := None |})
      = true.
Proof.
  destruct (className_is_last_and_never_decides (Some violet) Plus2)
    as (_ & (b1 & b2 & b3 & b4 & Hlast) & Hok).
  eexists _, b1, b2, b3, b4. split; [reflexivity|]. split.
  - exact (Hlast (Some "m-4 w-40") _ eq_refl).
  - rewrite (Hok None). reflexivity.
Defined.

(** With a style override the root has it after the base classes. *)
Example Card_className_last :
  ∃ n,
    Card {| color := Some violet; value := Plus2; className := Some "m-4 w-40" |}
    = Ok n
    ∧ classes (Some n)
      = ["relative"; "w-32"; "overflow-hidden"; "h-52"; "rounded-[18px]";
         "border-[2px]"; "border-black/30";
         "bg-gradient-to-br"; "from-violet-400"; "to-violet-600";
         "shadow-[inset_0_0_0_4px_rgba(255,255,255,0.9)]"; "shadow-lg";
         "m-4"; "w-40"].
Proof. eexists. split; reflexivity. Qed.

End CardClassName.

(** ** DraggableCard *)

Section Draggable.

(** C7. Whatever the child, the [motion.div] is configured with dragging on
    both axes, snapping back to the origin, elasticity 0.2, scale 1.1 and
    rotation 5 while dragged, and a spring of stiffness 300 and damping 20;
    it is given nothing else but its style classes. *)
Theorem DraggableCard_configuration (child : ReactNode) :
  tag (DraggableCard child) = Some "motion.div"
  ∧ gesture_config (DraggableCard child)
    = [("drag", VBool true);
       ("dragSnapToOrigin", VBool true);
       ("dragElastic", VNum 0.2);
       ("whileDrag", VObj [("scale", VNum 1.1); ("rotate", VNum 5)]);
       ("transition",
        VObj [("type", VStr "spring"); ("stiffness", VNum 300);
              ("damping", VNum 20)])]
  ∧ props (DraggableCard child)
    = gesture_config (DraggableCard child)
      ++ [("className", VStr "cursor-grab active:cursor-grabbing")].
Proof. by repeat split. Qed.

(** C9. The child is the only content of the wrapper, as it was given:
    nothing is added, dropped or repeated, and nothing of the wrapper depends
    on the child. *)
Theorem DraggableCard_keeps_children (child : ReactNode) :
  children (DraggableCard child) = [child]
  ∧ (∀ other, DraggableCard child = DraggableCard other → child = other)
  ∧ (∀ other,
       tag (DraggableCard child) = tag (DraggableCard other)
       ∧ props (DraggableCard child) = props (DraggableCard other)).
Proof.
  split; [reflexivity|]. split.
  - intros other H. by injection H.
  - done.
Qed.

End Draggable.

(** ** The page *)

Section HomePage.

(** C8. [Home] returns a tree with one button, one heading and two draggable
    wrappers; the first wraps the orange 1, a colored digit card, the second
    the wild card without a color, a neutral card. *)
Theorem Home_composition :
  ∃ n card1 card2,
    Home = Ok n
    ∧ Card {| color := Some orange; value := V1; className := None |} = Ok card1
    ∧ Card {| color := None; value := Wild; className := None |} = Ok card2
    ∧ children n
      = [Elem "Button" [] [Text "Button"];
         Text ";";
         Elem "h1" [("className", VStr "bg-primary")] [Text "ghdfkjgfhd"];
         DraggableCard card1;
         DraggableCard card2]
    ∧ count_tag "Button" n = 1
    ∧ count_tag "h1" n = 1
    ∧ count_tag "motion.div" n = 2
    ∧ filter (λ c, bool_decide (tag c = Some "motion.div")) (children n)
      = [DraggableCard card1; DraggableCard card2]
    ∧ background card1
      = Some (VStr "bg-gradient-to-br from-orange-300 to-orange-500")
    ∧ background card2 = Some (VStr "bg-[#1e3a8a]")
    ∧ neutral V1 = false ∧ neutral Wild = true.
Proof.
  do 3 eexists. split; [reflexivity|]. by repeat split.
Qed.

End HomePage.

(** ** Card: what a render depends on *)

Section CardDependencies.

(** Different values never share a glyph. *)
Lemma iconify_inj (v1 v2 : Value) : iconify v1 = iconify v2 → v1 = v2.
Proof.
  destruct v1, v2; intros H; try reflexivity; by vm_compute in H.
Qed.

(** Different colors never share a gradient. *)
Lemma gradient_inj (c1 c2 : Color) :
  to_string (colorMap !! Color_str c1) = to_string (colorMap !! Color_str c2) →
  c1 = c2.
Proof.
  destruct c1, c2; intros H; try reflexivity; by vm_compute in H.
Qed.

(** A render that returns had a neutral value or a color. *)
Lemma render_ok_color (table : gmap string string) (p : CardProps) (n : ReactNode) :
  render table p = Ok n → neutral (value p) = false → is_Some (color p).
Proof.
  intros H Hv. card_returns H.
  rewrite Hv in *. destruct (color p); [by eexists|discriminate].
Qed.

(** The glyph of a card value is its own: no two values are shown alike. *)
Theorem iconify_injective (v1 v2 : Value) :
  iconify v1 = iconify v2 ↔ v1 = v2.
Proof. split; [apply iconify_inj|by intros ->]. Qed.

(** In every rendered card the central text is the glyph of the value, never
    longer than two UTF-16 units; the central glyph has the smaller class
    [text-3xl] exactly when [iconify] replaces the value by a symbol, and the
    larger class [text-6xl] exactly when the value is shown as it is. *)
Theorem central_class_small_iff_symbol (p : CardProps) (n : ReactNode) :
  Card p = Ok n →
  children <$> central n = Some [Text (iconify (value p))]
  ∧ js_length (iconify (value p)) ≤ 2
  ∧ (central_size n = Some (VStr text_3xl) ↔ iconify (value p) ≠ Value_str (value p))
  ∧ (central_size n = Some (VStr text_6xl) ↔ iconify (value p) = Value_str (value p)).
Proof.
  intros H. card_returns H.
  split; [reflexivity|].
  destruct (value p); (split; [vm_compute; lia|]);
    split; split; intros H;
    first [done | by vm_compute in H | by destruct H | by vm_compute].
Qed.

Lemma central_class_small_iff_symbol_witness :
  ∃ n, Card {| color := Some pink; value := Reverse; className := None |} = Ok n
       ∧ children <$> central n = Some [Text cycle_arrows]
       ∧ central_size n = Some (VStr text_3xl).
Proof.
  eexists. split; [reflexivity|].
  pose proof (central_class_small_iff_symbol
    {| color := Some pink; value := Reverse; className := None |} _ eq_refl)
    as (Htext & _ & Hsmall & _).
  split; [exact Htext|]. apply Hsmall. discriminate.
Defined.

(** The background of a rendered card is the neutral one or one of the four
    gradients of the table, never a gradient of [undefined]; it is the
    neutral one exactly for a neutral value, and otherwise the gradient of
    the color given. *)
Theorem background_range (p : CardProps) (n : ReactNode) :
  Card p = Ok n →
  background n
  ∈ (Some ∘ VStr <$>
       ["bg-[#1e3a8a]";
        "bg-gradient-to-br from-pink-400 to-pink-600";
        "bg-gradient-to-br from-orange-300 to-orange-500";
        "bg-gradient-to-br from-lime-300  to-lime-500";
        "bg-gradient-to-br from-violet-400 to-violet-600"])
  ∧ (background n = Some (VStr "bg-[#1e3a8a]") ↔ neutral (value p) = true)
  ∧ (neutral (value p) = false →
     ∃ c g, color p = Some c ∧ colorMap !! Color_str c = Some g
            ∧ background n = Some (VStr ("bg-gradient-to-br " +:+ g))).
Proof.
  intros H.
  assert (neutral (value p) = false → is_Some (color p)) as Hcolor
    by apply (render_ok_color _ _ _ H).
  card_returns H.
  destruct (neutral (value p)) eqn:Hv.
  - split; [apply list_elem_of_here|]. split; [done|discriminate].
  - destruct (Hcolor eq_refl) as [c Hc]. rewrite Hc.
    split; [|split].
    + destruct c; vm_compute;
        repeat first [apply list_elem_of_here | apply list_elem_of_further].
    + split; [|discriminate]. destruct c; intros Hbg; by vm_compute in Hbg.
    + intros _. exists c. destruct c; by eexists.
Qed.

Lemma background_range_witness :
  ∃ n, Card {| color := Some lime; value := Skip; className := None |} = Ok n
       ∧ background n = Some (VStr "bg-gradient-to-br from-lime-300  to-lime-500").
Proof.
  eexists. split; [reflexivity|].
  destruct (proj2 (proj2 (background_range
    {| color := Some lime; value := Skip; className := None |} _ eq_refl)) eq_refl)
    as (c & g & Hc & Hg & Hbg).
  injection Hc as <-. injection Hg as <-. exact Hbg.
Defined.

(** What identifies a card can be read off its render: two returned cards
    show the same central text and are given the same background class
    exactly when they have the same value and, unless the value is neutral,
    the same color.  Renders that agree on these and on [className] return
    the same tree. *)
Theorem render_distinguishes_cards (p1 p2 : CardProps) (n1 n2 : ReactNode) :
  Card p1 = Ok n1 → Card p2 = Ok n2 →
  (children <$> central n1 = children <$> central n2
   ∧ background n1 = background n2
   ↔ value p1 = value p2 ∧ (neutral (value p1) = true ∨ color p1 = color p2))
  ∧ (value p1 = value p2 → className p1 = className p2 →
     neutral (value p1) = true ∨ color p1 = color p2 →
     n1 = n2).
Proof.
  intros H1 H2. split.
  - pose proof (render_ok_color _ _ _ H1) as Hc1.
    pose proof (render_ok_color _ _ _ H2) as Hc2.
    card_returns H1. card_returns H2. split.
    + intros [Htext Hbg].
      assert (value p1 = value p2) as Hv
        by (apply iconify_inj; by injection Htext).
      split; [exact Hv|].
      rewrite <- Hv in *.
      destruct (neutral (value p1)) eqn:Hn; [by left|right].
      destruct (Hc1 eq_refl) as [c1 Hcol1], (Hc2 eq_refl) as [c2 Hcol2].
      rewrite Hcol1, Hcol2 in *. f_equal. apply gradient_inj.
      cbv [background class_args prop props lookup_prop] in Hbg.
      by simplify_eq.
    + intros [Hv Hc]. rewrite <- Hv. split; [reflexivity|].
      cbv [background class_args prop props lookup_prop].
      destruct Hc as [Hn|Hc]; [by rewrite Hn|by rewrite Hc].
  - destruct p1 as [c1 v1 cl1], p2 as [c2 v2 cl2]. cbv [value className color].
    intros <- <- Hc.
    assert (Card {| color := c1; value := v1; className := cl1 |}
            = Card {| color := c2; value := v1; className := cl1 |}) as Hsame.
    { destruct Hc as [Hn| ->]; [|done].
      apply render_neutral_same. by apply neutral_spec. }
    rewrite Hsame, H2 in H1. by injection H1.
Qed.

Lemma render_distinguishes_cards_witness :
  ∃ n1 n2,
    Card {| color := Some pink; value := V7; className := None |} = Ok n1
    ∧ Card {| color := Some lime; value := V7; className := None |} = Ok n2
    ∧ children <$> central n1 = children <$> central n2
    ∧ background n1 ≠ background n2.
Proof.
  do 2 eexists. split; [reflexivity|]. split; [reflexivity|].
  split; [reflexivity|]. intros Hbg.
  destruct (proj1 (proj1 (render_distinguishes_cards
    {| color := Some pink; value := V7; className := None |}
    {| color := Some lime; value := V7; className := None |} _ _
    eq_refl eq_refl)) (conj eq_refl Hbg)) as (_ & [Hn|Hc]); discriminate.
Defined.

(** The content of a rendered card, everything below its root, depends on
    the value alone: neither the color nor [className] reaches it. *)
Theorem children_depend_on_value_only (p1 p2 : CardProps) (n1 n2 : ReactNode) :
  Card p1 = Ok n1 → Card p2 = Ok n2 → value p1 = value p2 →
  children n1 = children n2.
Proof.
  intros H1 H2 Hv. card_returns H1. card_returns H2.
  cbv [children]. by rewrite Hv.
Qed.

Lemma children_depend_on_value_only_witness :
  ∃ n1 n2,
    Card {| color := Some pink; value := Plus2; className := Some "m-2" |} = Ok n1
    ∧ Card {| color := Some violet; value := Plus2; className := None |} = Ok n2
    ∧ children n1 = children n2.
Proof.
  do 2 eexists. split; [reflexivity|]. split; [reflexivity|].
  exact (children_depend_on_value_only
    {| color := Some pink; value := Plus2; className := Some "m-2" |}
    {| color := Some violet; value := Plus2; className := None |} _ _
    eq_refl eq_refl eq_refl).
Defined.

(** Every rendered card has the same shape: a [div] with five [span]
    children (overlay, highlight, two corners, central glyph), of which the
    first two are empty and the last three hold one text each. *)
Theorem card_shape (p : CardProps) (n : ReactNode) :
  Card p = Ok n →
  tag n = Some "div"
  ∧ tag <$> children n = replicate 5 (Some "span")
  ∧ (length ∘ children) <$> children n = [0; 0; 1; 1; 1]
  ∧ count_tag "span" n = 5
  ∧ count_tag "div" n = 1.
Proof. intros H. card_returns H. by repeat split. Qed.

Lemma card_shape_witness :
  ∃ n, Card {| color := None; value := Plus4; className := None |} = Ok n
       ∧ tag n = Some "div"
       ∧ tag <$> children n = replicate 5 (Some "span").
Proof.
  eexists. split; [reflexivity|].
  pose proof (card_shape
    {| color := None; value := Plus4; className := None |} _ eq_refl) as H.
  split; [exact (proj1 H)|exact (proj1 (proj2 H))].
Defined.

(** The overlay of a colored card is the flat tint. *)
Lemma overlay_by_neutrality_witness :
  ∃ n, Card {| color := Some orange; value := V1; className := None |} = Ok n
       ∧ classes (overlay n)
         = ["absolute"; "inset-0"; "block"; "origin-top-left"; "rotate-12";
            "bg-white/20"; "mix-blend-overlay"; "pointer-events-none"].
Proof.
  eexists. split; [reflexivity|].
  exact (proj1 (overlay_by_neutrality
    {| color := Some orange; value := V1; className := None |} _ eq_refl)).
Defined.

End CardDependencies.
